(** * TypeJSON TitleCraft: a shallow embedding of [typejson_titlecraft/core.py]

    Python [str] values are sequences of Unicode code points; they are
    modelled as [pystr := list Z], so that [len] is [length] and
    [str.strip] works on code points as Python does.  Source literals are
    written as UTF-8 Rocq strings and decoded by [u]. *)

From Stdlib Require Import ZArith List String Ascii Bool Lia QArith.
Import ListNotations.
Open Scope Z_scope.

(** ** Python strings *)

Definition pystr := list Z.

(** UTF-8 decoding of a byte list (only well-formed input is ever decoded:
    the literals of the source). *)
Fixpoint utf8_decode (bs : list Z) : pystr :=
  match bs with
  | [] => []
  | b1 :: rest =>
      if b1 <? 128 then b1 :: utf8_decode rest
      else if b1 <? 224 then
        match rest with
        | b2 :: r => ((b1 - 192) * 64 + (b2 - 128)) :: utf8_decode r
        | [] => []
        end
      else if b1 <? 240 then
        match rest with
        | b2 :: b3 :: r =>
            ((b1 - 224) * 4096 + (b2 - 128) * 64 + (b3 - 128)) :: utf8_decode r
        | _ => []
        end
      else
        match rest with
        | b2 :: b3 :: b4 :: r =>
            ((b1 - 240) * 262144 + (b2 - 128) * 4096 + (b3 - 128) * 64
             + (b4 - 128)) :: utf8_decode r
        | _ => []
        end
  end.

(** A source literal, as the code points Python sees. *)
Definition u (s : string) : pystr :=
  utf8_decode (map (fun a => Z.of_nat (nat_of_ascii a)) (list_ascii_of_string s)).

Definition nl : pystr := [10].        (* newline *)
Definition dquote : pystr := [34].    (* double quote *)
Definition squote : pystr := [39].    (* single quote *)

Definition pystr_eqb (a b : pystr) : bool :=
  if list_eq_dec Z.eq_dec a b then true else false.

Definition py_in (x : pystr) (xs : list pystr) : bool :=
  existsb (pystr_eqb x) xs.

(** Truthiness of a [str | None] value: [None] and the empty string are falsy. *)
Definition truthy (o : option pystr) : bool :=
  match o with
  | Some (_ :: _) => true
  | _ => false
  end.

(** [a or b] on [str | None] values. *)
Definition py_or (a b : option pystr) : option pystr :=
  if truthy a then a else b.

(** [str.isspace] for one code point (CPython's whitespace table). *)
Definition py_isspace (c : Z) : bool :=
  ((9 <=? c) && (c <=? 13)) || ((28 <=? c) && (c <=? 32)) ||
  (c =? 133) || (c =? 160) || (c =? 5760) ||
  ((8192 <=? c) && (c <=? 8202)) || (c =? 8232) || (c =? 8233) ||
  (c =? 8239) || (c =? 8287) || (c =? 12288).

Fixpoint lstrip_by (p : Z -> bool) (s : pystr) : pystr :=
  match s with
  | [] => []
  | c :: r => if p c then lstrip_by p r else s
  end.

Definition rstrip_by (p : Z -> bool) (s : pystr) : pystr :=
  rev (lstrip_by p (rev s)).

Definition strip_by (p : Z -> bool) (s : pystr) : pystr :=
  rstrip_by p (lstrip_by p s).

(** [s.strip()] *)
Definition py_strip (s : pystr) : pystr := strip_by py_isspace s.

(** [s.strip(chars)]: every leading and trailing code point of [chars]. *)
Definition py_strip_chars (chars : pystr) (s : pystr) : pystr :=
  strip_by (fun c => existsb (Z.eqb c) chars) s.

Fixpoint py_join (sep : pystr) (xs : list pystr) : pystr :=
  match xs with
  | [] => []
  | [x] => x
  | x :: r => x ++ sep ++ py_join sep r
  end.

(** ** Module constants *)

Definition SUPPORTED_MODELS : list pystr :=
  map u ["gpt-5"; "gpt-5-mini"; "gpt-5-nano"; "gpt-4o"; "gpt-4o-mini";
         "gpt-4"; "gpt-3.5-turbo"]%string.

Definition GPT5_MODELS : list pystr :=
  map u ["gpt-5"; "gpt-5-mini"; "gpt-5-nano"]%string.

Definition DEFAULT_MODEL : pystr := u "gpt-4o".

(** ** Exceptions *)

(** [ValidationError] and [APIError] of the module; [UpstreamError] is a
    failure raised by the OpenAI client, with its optional [status_code]
    attribute and its [str(e)].  [raise X from e] records [e] as the cause. *)
Set Warnings "-register-all".
Inductive exn : Type :=
| ValidationError (msg : pystr)
| APIError (msg : pystr) (cause : option exn)
| UpstreamError (status_code : option Z) (msg : pystr).

(** [getattr(e, 'status_code')] when [hasattr(e, 'status_code')]. *)
Definition exn_status_code (e : exn) : option Z :=
  match e with
  | UpstreamError s _ => s
  | _ => None
  end.

(** [str(e)] *)
Definition exn_str (e : exn) : pystr :=
  match e with
  | ValidationError m | APIError m _ | UpstreamError _ m => m
  end.

Inductive result (A : Type) : Type :=
| Ok (a : A)
| Raise (e : exn).
Arguments Ok {A} a.
Arguments Raise {A} e.

(** ** The OpenAI client and its two call shapes *)

Record OpenAI : Type := mkOpenAI { api_key : pystr }.

Record Message : Type := mkMessage { role : pystr; content : pystr }.

(** Keyword arguments of [responses.create] and [chat.completions.create];
    the float literals [30.0] and [0.3] are kept as the rationals they
    denote. *)
Inductive Request : Type :=
| ResponsesCreate (model : pystr) (input : pystr) (reasoning_effort : pystr)
    (text_verbosity : pystr) (timeout : Q)
| ChatCompletionsCreate (model : pystr) (messages : list Message)
    (max_completion_tokens : Z) (temperature : Q) (timeout : Q).

(** What the service does with one request: a response whose text payload
    ([response.output_text], resp. [response.choices[0].message.content])
    may be absent, or a raised failure. *)
Inductive Reply : Type :=
| Replied (payload : option pystr)
| Failed (status_code : option Z) (msg : pystr).

(** ** The [Client] object *)

Record Client : Type := mkClient { model : pystr; _client : OpenAI }.

(** The interpreter state: the [self] object and the requests sent so far,
    with the OpenAI client each went through. *)
Record World : Type := mkWorld { self : Client; sent : list (OpenAI * Request) }.

(** State and exception monad of the methods. *)
Definition M (A : Type) : Type := World -> result A * World.

Definition ret {A} (a : A) : M A := fun w => (Ok a, w).

Definition bind {A B} (m : M A) (k : A -> M B) : M B :=
  fun w => match m w with
           | (Ok a, w') => k a w'
           | (Raise e, w') => (Raise e, w')
           end.

Definition raise {A} (e : exn) : M A := fun w => (Raise e, w).

(** [try: m except Exception as e: h e] *)
Definition try_except {A} (m : M A) (h : exn -> M A) : M A :=
  fun w => match m w with
           | (Ok a, w') => (Ok a, w')
           | (Raise e, w') => h e w'
           end.

Definition get_self : M Client := fun w => (Ok (self w), w).

Notation "x <- c ;; k" := (bind c (fun x => k))
  (at level 61, c at next level, right associativity).

(** ** [Client.__init__] *)

Definition msg_unsupported_model (m : pystr) : pystr :=
  u "Unsupported model '" ++ m ++ u "'. Supported models: "
    ++ py_join (u ", ") SUPPORTED_MODELS.

Definition msg_key_required : pystr :=
  u "OpenAI API key required. Provide it via openai_api_key parameter "
    ++ u "or set OPENAI_API_KEY environment variable.".

(** [env_OPENAI_API_KEY] is [os.getenv] of OPENAI_API_KEY, passed in
    explicitly.  [OpenAI(api_key=...)] does not raise once a key is given. *)
Definition Client_init (env_OPENAI_API_KEY : option pystr)
    (openai_api_key : option pystr) (model : pystr) : result Client :=
  if negb (py_in model SUPPORTED_MODELS) then
    Raise (ValidationError (msg_unsupported_model model))
  else
    match py_or openai_api_key env_OPENAI_API_KEY with
    | Some (c :: cs) => Ok (mkClient model (mkOpenAI (c :: cs)))
    | _ => Raise (ValidationError msg_key_required)
    end.

(** ** [Client._get_system_prompt] *)

Definition base_prompt : pystr :=
  u "You convert plain text into a concise, descriptive, human-readable title for "
  ++ u "frontend display." ++ nl
  ++ u "Rules:" ++ nl
  ++ u "• Output in the same language as the input." ++ nl
  ++ u "• Be concise: aim for 4–9 words or ≤60 characters. Prefer clarity over creativity." ++ nl
  ++ u "• Preserve key proper nouns and terms; do not invent information." ++ nl
  ++ u "• Remove filler words, boilerplate, IDs, and dates unless essential." ++ nl
  ++ u "• Casing: Title Case for Latin scripts; keep natural casing for non-Latin scripts "
  ++ u "(e.g., Japanese)." ++ nl
  ++ u "• Punctuation: no quotes/brackets/emojis/hashtags; no trailing period. Use colon "
  ++ u "or dash only if it clearly improves clarity." ++ nl
  ++ u "• If the input is already a good title, normalize casing/spacing and return it." ++ nl
  ++ u "• If input is empty or meaningless, return: Untitled" ++ nl
  ++ u "Return only the title text—no explanations.".

Definition simplified_prompt : pystr :=
  u "Convert text to a concise title (4-9 words, ≤60 chars). "
  ++ u "Same language as input. Title Case for Latin scripts. "
  ++ u "No quotes/brackets/emojis. Return only the title.".

(** It reads only [self.model]; it is given that field. *)
Definition _get_system_prompt (model : pystr) : pystr :=
  if py_in model [u "gpt-3.5-turbo"] then simplified_prompt else base_prompt.

(** ** Title generation *)

(** [title.strip().strip(DQ).strip(SQ)], DQ and SQ the one-character
    strings of a double and of a single quote. *)
Definition clean_title (title : pystr) : pystr :=
  py_strip_chars squote (py_strip_chars dquote (py_strip title)).

Definition msg_chat_empty : pystr := u "OpenAI API returned empty response.".

Definition msg_model_empty (m : pystr) : pystr :=
  u "Model '" ++ m ++ u "' returned empty response.".

Section Methods.

(** The OpenAI service, as seen through one client object. *)
Variable upstream : OpenAI -> Request -> Reply.

(** [self._client.<api>.create(...)]: the request is sent, then the
    reply's payload is returned or its failure raised. *)
Definition create (req : Request) : M (option pystr) :=
  fun w =>
    let c := _client (self w) in
    let w' := mkWorld (self w) (sent w ++ [(c, req)]) in
    match upstream c req with
    | Replied p => (Ok p, w')
    | Failed s m => (Raise (UpstreamError s m), w')
    end.

Definition responses_request (m text : pystr) : Request :=
  ResponsesCreate m (_get_system_prompt m ++ nl ++ nl
                      ++ u "Text to convert to title: " ++ text)
    (u "minimal") (u "low") (30 # 1).

Definition _generate_title_responses_api (text : pystr) : M pystr :=
  s <- get_self ;;
  output_text <- create (responses_request (model s) text) ;;
  let title := if truthy output_text then output_text else None in
  match title with
  | Some (c :: cs) => ret (clean_title (c :: cs))
  | _ => raise (APIError (msg_model_empty (model s)) None)
  end.

Definition chat_request (m text : pystr) : Request :=
  ChatCompletionsCreate m
    [mkMessage (u "system") (_get_system_prompt m); mkMessage (u "user") text]
    50 (3 # 10) (30 # 1).

Definition _generate_title_chat_api (text : pystr) : M pystr :=
  s <- get_self ;;
  title <- create (chat_request (model s) text) ;;
  match title with
  | Some (c :: cs) => ret (clean_title (c :: cs))
  | _ => raise (APIError msg_chat_empty None)
  end.

Definition msg_rate_limit : pystr := u "Rate limit exceeded. Please try again later.".
Definition msg_invalid_key : pystr := u "Invalid API key.".
Definition msg_server_error : pystr :=
  u "OpenAI API server error. Please try again later.".
Definition msg_failed (e : exn) : pystr :=
  u "Failed to generate title: " ++ exn_str e.

(** The [except Exception as e] clause. *)
Definition generate_title_handler (e : exn) : M pystr :=
  match exn_status_code e with
  | Some sc =>
      if sc =? 429 then raise (APIError msg_rate_limit (Some e))
      else if sc =? 401 then raise (APIError msg_invalid_key (Some e))
      else if sc >=? 500 then raise (APIError msg_server_error (Some e))
      else raise (APIError (msg_failed e) (Some e))
  | None => raise (APIError (msg_failed e) (Some e))
  end.

Definition msg_text_empty : pystr := u "Input text cannot be empty.".
Definition msg_text_too_long : pystr := u "Input text too long (max 8000 characters).".

(** The body of the [try] block. *)
Definition generate_title_body (text : pystr) : M pystr :=
  s <- get_self ;;
  if py_in (model s) GPT5_MODELS then _generate_title_responses_api text
  else _generate_title_chat_api text.

Definition generate_title (text : pystr) : M pystr :=
  if negb (truthy (Some text)) || negb (truthy (Some (py_strip text))) then
    raise (ValidationError msg_text_empty)
  else
    let text := py_strip text in
    if Z.of_nat (List.length text) >? 8000 then raise (ValidationError msg_text_too_long)
    else
      try_except (generate_title_body text) generate_title_handler.

End Methods.

(** The one request [generate_title] sends for the (already stripped) text
    [t] when [self.model] is [m]. *)
Definition issued_request (m t : pystr) : Request :=
  if py_in m GPT5_MODELS then responses_request m t else chat_request m t.

(** An input accepted by the validation at the top of [generate_title]. *)
Definition valid_input (text : pystr) : Prop :=
  py_strip text <> [] /\ Z.of_nat (List.length (py_strip text)) <= 8000.

(** The claim's reading of the post-processing: surrounding whitespace
    removed, then one matching pair of surrounding single or double quote
    characters removed. *)
Definition strip_one_quote_layer (s : pystr) : pystr :=
  let t := py_strip s in
  match t with
  | q :: rest =>
      if (q =? 34) || (q =? 39) then
        match rev rest with
        | q' :: mid_rev => if q' =? q then rev mid_rev else t
        | [] => t
        end
      else t
  | [] => t
  end.

(** [part in msg] for strings. *)
Definition contains (msg part : pystr) : Prop :=
  exists pre post, msg = pre ++ part ++ post.

(** ** The command line: [cli.main] *)

(** [str(n)] for a non-negative integer. *)
Fixpoint digits_aux (fuel : nat) (n : Z) (acc : pystr) : pystr :=
  match fuel with
  | O => acc
  | S f =>
      let acc' := (48 + n mod 10) :: acc in
      if n <? 10 then acc' else digits_aux f (n / 10) acc'
  end.

Definition py_str_int (n : Z) : pystr :=
  digits_aux (S (Z.to_nat (Z.log2 n))) n [].

(** The namespace [parser.parse_args()] returns.  [argparse] is a library:
    its parsing is not modelled, [main] is taken from the parsed values on
    (with [--model] restricted by [choices=SUPPORTED_MODELS] and defaulting
    to [DEFAULT_MODEL]). *)
Record Args : Type := mkArgs {
  args_text : option pystr;
  args_stdin : bool;
  args_model : pystr;
  args_api_key : option pystr;
  args_verbose : bool
}.

(** What [main] writes: one [print] call to stdout or stderr, the help
    text of [parser.print_help()], or the traceback of
    [traceback.print_exc]. *)
Inductive Output : Type :=
| Stdout (line : pystr)
| Stderr (line : pystr)
| Help
| Traceback.

(** [isinstance(e, TitleCraftError)] *)
Definition is_titlecraft_error (e : exn) : bool :=
  match e with
  | ValidationError _ | APIError _ _ => true
  | UpstreamError _ _ => false
  end.

Definition msg_no_stdin : pystr := u "Error: No input provided via stdin.".
Definition msg_no_text : pystr := u "Error: No text provided.".

(** The [except] clauses of [main] ([KeyboardInterrupt], an asynchronous
    signal, is not modelled). *)
Definition main_error (verbose : bool) (e : exn) : list Output :=
  if is_titlecraft_error e then [Stderr (u "Error: " ++ exn_str e)]
  else Stderr (u "Unexpected error: " ++ exn_str e)
         :: (if verbose then [Traceback] else []).

(** The input-reading part of [main]: the text to title, or what is
    written before [sys.exit(1)]. *)
Definition main_get_text (stdin_content : pystr) (args : Args) : pystr + list Output :=
  if args_stdin args then
    let text := py_strip stdin_content in   (* read_stdin() *)
    if negb (truthy (Some text)) then inr [Stderr msg_no_stdin] else inl text
  else
    match args_text args with
    | Some (c :: cs) => inl (c :: cs)
    | _ => inr [Stderr msg_no_text; Help]
    end.

(** The [try] block of [main] and its [except] clauses, on the text [text]:
    what is written, the exit status ([sys.exit(1)], or 0 when [main]
    returns) and the requests sent. *)
Definition main_run (upstream : OpenAI -> Request -> Reply)
    (env_OPENAI_API_KEY : option pystr) (args : Args) (text : pystr)
    : list Output * Z * list (OpenAI * Request) :=
  let v1 := if args_verbose args
            then [Stderr (u "Using model: " ++ args_model args)] else [] in
  match Client_init env_OPENAI_API_KEY (args_api_key args) (args_model args) with
  | Raise e => (v1 ++ main_error (args_verbose args) e, 1, [])
  | Ok client =>
      let v2 := if args_verbose args
                then [Stderr (u "Generating title for "
                              ++ py_str_int (Z.of_nat (List.length text))
                              ++ u " characters of text...")] else [] in
      let (r, w) := generate_title upstream text (mkWorld client []) in
      match r with
      | Ok title => (v1 ++ v2 ++ [Stdout title], 0, sent w)
      | Raise e => (v1 ++ v2 ++ main_error (args_verbose args) e, 1, sent w)
      end
  end.

(** [main()] after [parse_args]: the environment value of OPENAI_API_KEY,
    the content of standard input and the service are its inputs. *)
Definition main (upstream : OpenAI -> Request -> Reply)
    (env_OPENAI_API_KEY : option pystr) (stdin_content : pystr) (args : Args)
    : list Output * Z * list (OpenAI * Request) :=
  match main_get_text stdin_content args with
  | inr outs => (outs, 1, [])
  | inl text => main_run upstream env_OPENAI_API_KEY args text
  end.

(** The lines written to stdout, the help text included. *)
Definition stdout_of (outs : list Output) : list Output :=
  filter (fun o => match o with Stdout _ | Help => true | _ => false end) outs.

(** The same command line with [--verbose] set to [b]. *)
Definition with_verbose (a : Args) (b : bool) : Args :=
  mkArgs (args_text a) (args_stdin a) (args_model a) (args_api_key a) b.

(** ** Sample states *)

(** A client for [gpt-4o], resp. [gpt-5-mini], that has sent nothing yet. *)
Definition sample_world : World :=
  mkWorld (mkClient (u "gpt-4o") (mkOpenAI (u "sk-test"))) [].
Definition sample_world_gpt5 : World :=
  mkWorld (mkClient (u "gpt-5-mini") (mkOpenAI (u "sk-test"))) [].

(** A service that answers every request with [r]. *)
Definition constant_service (r : Reply) : OpenAI -> Request -> Reply := fun _ _ => r.

(** * Properties *)

(** ** Basic facts *)

Lemma py_in_In (x : pystr) (xs : list pystr) : py_in x xs = true <-> In x xs.
Proof.
  unfold py_in. rewrite existsb_exists. split.
  - intros [y [Hy Heq]]. unfold pystr_eqb in Heq.
    destruct (list_eq_dec Z.eq_dec x y); [subst; exact Hy | discriminate].
  - intros H. exists x. split; [exact H|]. unfold pystr_eqb.
    destruct (list_eq_dec Z.eq_dec x x); [reflexivity | contradiction].
Qed.

Lemma py_in_false (x : pystr) (xs : list pystr) : py_in x xs = false <-> ~ In x xs.
Proof.
  rewrite <- py_in_In. destruct (py_in x xs); split; congruence.
Qed.

Lemma handler_raises_api (e : exn) (w : World) :
  exists msg cause, generate_title_handler e w = (Raise (APIError msg cause), w).
Proof.
  unfold generate_title_handler.
  destruct (exn_status_code e) as [sc|].
  - destruct (sc =? 429); [eexists; eexists; reflexivity|].
    destruct (sc =? 401); [eexists; eexists; reflexivity|].
    destruct (sc >=? 500); eexists; eexists; reflexivity.
  - eexists; eexists; reflexivity.
Qed.

(** Whatever the [try] body does, the [except] clause lets out no
    [ValidationError]. *)
Lemma try_except_no_validation (m : M pystr) (w : World) (msg : pystr) :
  fst (try_except m generate_title_handler w) <> Raise (ValidationError msg).
Proof.
  unfold try_except. destruct (m w) as [[a|e] w']; simpl; [discriminate|].
  destruct (handler_raises_api e w') as [msg' [c Hh]]. rewrite Hh. discriminate.
Qed.

(** The validation prefix of [generate_title]. *)
Lemma generate_title_unfold up text w :
  generate_title up text w =
  match py_strip text with
  | [] => (Raise (ValidationError msg_text_empty), w)
  | _ =>
      if Z.of_nat (List.length (py_strip text)) >? 8000
      then (Raise (ValidationError msg_text_too_long), w)
      else try_except (generate_title_body up (py_strip text)) generate_title_handler w
  end.
Proof.
  unfold generate_title. destruct text as [|c cs]; [reflexivity|].
  simpl (truthy (Some (c :: cs))). simpl negb.
  destruct (py_strip (c :: cs)); [reflexivity|].
  simpl negb. simpl orb. cbv iota.
  destruct (_ >? 8000); reflexivity.
Qed.

Lemma generate_title_valid up text w :
  valid_input text ->
  generate_title up text w =
  try_except (generate_title_body up (py_strip text)) generate_title_handler w.
Proof.
  intros [Hne Hlen]. rewrite generate_title_unfold.
  destruct (py_strip text) as [|c cs] eqn:E; [contradiction|].
  replace (Z.of_nat (List.length (c :: cs)) >? 8000) with false by lia.
  reflexivity.
Qed.

(** One run of [generate_title] on an accepted input: exactly one request,
    [issued_request], goes out through [self._client]; its reply is then
    post-processed, or its failure handed to the [except] clause. *)
Lemma generate_title_run up text w :
  valid_input text ->
  generate_title up text w =
  let t := py_strip text in
  let m := model (self w) in
  let c := _client (self w) in
  let req := issued_request m t in
  let w' := mkWorld (self w) (sent w ++ [(c, req)]) in
  match up c req with
  | Replied (Some (x :: xs)) => (Ok (clean_title (x :: xs)), w')
  | Replied _ =>
      generate_title_handler
        (APIError (if py_in m GPT5_MODELS then msg_model_empty m else msg_chat_empty)
           None) w'
  | Failed s msg => generate_title_handler (UpstreamError s msg) w'
  end.
Proof.
  intros Hv. rewrite (generate_title_valid up text w Hv).
  unfold try_except, generate_title_body, issued_request, bind, get_self.
  cbv zeta.
  destruct (py_in (model (self w)) GPT5_MODELS) eqn:Hm;
    unfold _generate_title_responses_api, _generate_title_chat_api, bind, get_self,
      create, ret, raise; simpl self; simpl _client; simpl sent;
    destruct (up (_client (self w)) _) as [[[|x xs]|]|s msg]; reflexivity.
Qed.

Lemma sent_after_run up text w :
  valid_input text ->
  sent (snd (generate_title up text w)) =
  sent w ++ [(_client (self w), issued_request (model (self w)) (py_strip text))].
Proof.
  intros Hv. rewrite (generate_title_run up text w Hv). cbv zeta.
  destruct (up _ _) as [[[|x xs]|]|s msg]; try reflexivity;
    match goal with
    | |- sent (snd (generate_title_handler ?e ?w')) = _ =>
        destruct (handler_raises_api e w') as [? [? ->]]; reflexivity
    end.
Qed.

(** ** Claims *)

(** C1: on an accepted input, a failure of the upstream call is turned into
    an [APIError] by its status code: 429 gives the rate-limit error, 401
    the invalid-key error, any code >= 500 the server error, and any other
    failure (no status code, or a code such as 404) the generic error
    wrapping the failure's message; the failure is kept as the cause. *)
Theorem generate_title_failure_mapping up text w st msg
  (Hv : valid_input text)
  (Hfail : up (_client (self w)) (issued_request (model (self w)) (py_strip text))
           = Failed st msg) :
  let e := UpstreamError st msg in
  let r := fst (generate_title up text w) in
  (st = Some 429 -> r = Raise (APIError msg_rate_limit (Some e))) /\
  (st = Some 401 -> r = Raise (APIError msg_invalid_key (Some e))) /\
  (forall sc, st = Some sc -> sc >= 500 -> r = Raise (APIError msg_server_error (Some e))) /\
  ((st = None \/ exists sc, st = Some sc /\ sc <> 429 /\ sc <> 401 /\ sc < 500) ->
   r = Raise (APIError (u "Failed to generate title: " ++ msg) (Some e))).
Proof.
  cbv zeta. rewrite (generate_title_run up text w Hv). cbv zeta. rewrite Hfail.
  unfold generate_title_handler, exn_status_code, msg_failed, exn_str.
  repeat split.
  - intros ->. reflexivity.
  - intros ->. reflexivity.
  - intros sc -> Hsc. simpl.
    destruct (Z.eqb_spec sc 429); [lia|]. destruct (Z.eqb_spec sc 401); [lia|].
    replace (sc >=? 500) with true by lia. reflexivity.
  - intros [-> | [sc [-> [H1 [H2 H3]]]]]; [reflexivity|]. simpl.
    destruct (Z.eqb_spec sc 429); [lia|]. destruct (Z.eqb_spec sc 401); [lia|].
    replace (sc >=? 500) with false by lia. reflexivity.
Qed.

(** C2: on an accepted input, [generate_title] sends exactly one request.
    For a GPT-5 model it is the Responses call whose input is the system
    prompt, a blank line and the stripped text, with minimal reasoning
    effort, low verbosity and a 30 s timeout; for any other supported model
    it is the Chat Completions call with the system prompt as system message,
    the stripped text as user message, 50 completion tokens, temperature
    0.3 and a 30 s timeout. *)
Theorem generate_title_call_shape up text w (Hv : valid_input text) :
  let m := model (self w) in
  let t := py_strip text in
  let c := _client (self w) in
  (In m GPT5_MODELS ->
   sent (snd (generate_title up text w)) =
   sent w ++ [(c, ResponsesCreate m
                   (_get_system_prompt m ++ nl ++ nl ++ u "Text to convert to title: " ++ t)
                   (u "minimal") (u "low") (30 # 1))]) /\
  (In m SUPPORTED_MODELS -> ~ In m GPT5_MODELS ->
   sent (snd (generate_title up text w)) =
   sent w ++ [(c, ChatCompletionsCreate m
                   [mkMessage (u "system") (_get_system_prompt m); mkMessage (u "user") t]
                   50 (3 # 10) (30 # 1))]).
Proof.
  cbv zeta. rewrite (sent_after_run up text w Hv). unfold issued_request. split.
  - intros H. apply py_in_In in H. rewrite H. reflexivity.
  - intros _ H. apply py_in_false in H. rewrite H. reflexivity.
Qed.

Lemma generate_title_validation_iff up text w :
  (exists msg, fst (generate_title up text w) = Raise (ValidationError msg)) <->
  (py_strip text = [] \/ Z.of_nat (List.length (py_strip text)) > 8000).
Proof.
  rewrite generate_title_unfold.
  destruct (py_strip text) as [|c cs] eqn:E.
  - split; [intros _; left; reflexivity | intros _; eexists; reflexivity].
  - destruct (Z.of_nat (List.length (c :: cs)) >? 8000) eqn:G;
      rewrite Z.gtb_ltb in G.
    + apply Z.ltb_lt in G. split; [intros _; right; lia | intros _; eexists; reflexivity].
    + apply Z.ltb_ge in G. split.
      * intros [msg H]. exfalso. exact (try_except_no_validation _ _ _ H).
      * intros [H | H]; [discriminate | lia].
Qed.

(** C3: [generate_title] raises [ValidationError] exactly when the stripped
    text is empty or longer than 8000 code points; a stripped length of
    exactly 8000 raises none, a stripped length of 8001 raises one. *)
Theorem generate_title_input_validation up w text :
  ((exists msg, fst (generate_title up text w) = Raise (ValidationError msg)) <->
   (py_strip text = [] \/ Z.of_nat (List.length (py_strip text)) > 8000)) /\
  (forall text', Z.of_nat (List.length (py_strip text')) = 8000 ->
   forall msg, fst (generate_title up text' w) <> Raise (ValidationError msg)) /\
  (forall text', Z.of_nat (List.length (py_strip text')) = 8001 ->
   exists msg, fst (generate_title up text' w) = Raise (ValidationError msg)).
Proof.
  split; [apply generate_title_validation_iff|]. split.
  - intros text' Hl msg H.
    destruct (proj1 (generate_title_validation_iff up text' w) (ex_intro _ msg H))
      as [E | E]; [rewrite E in Hl; discriminate | lia].
  - intros text' Hl. apply (generate_title_validation_iff up text' w). right. lia.
Qed.

(** C4 (as amended): on an accepted input, a non-empty upstream payload
    [p] is returned with its surrounding whitespace removed, then every
    leading and trailing double quote, then every leading and trailing
    single quote; so the payload Test Title is returned unchanged and the
    payload Quoted Title between double quotes comes back as Quoted Title. *)
Theorem generate_title_returns_clean_title up text w p
  (Hv : valid_input text)
  (Hrep : up (_client (self w)) (issued_request (model (self w)) (py_strip text))
          = Replied (Some p))
  (Hp : p <> []) :
  fst (generate_title up text w) =
    Ok (py_strip_chars squote (py_strip_chars dquote (py_strip p))) /\
  (p = u "Test Title" -> fst (generate_title up text w) = Ok (u "Test Title")) /\
  (p = dquote ++ u "Quoted Title" ++ dquote ->
   fst (generate_title up text w) = Ok (u "Quoted Title")).
Proof.
  assert (Hr : fst (generate_title up text w) = Ok (clean_title p)).
  { rewrite (generate_title_run up text w Hv). cbv zeta. rewrite Hrep.
    destruct p as [|x xs]; [contradiction | reflexivity]. }
  rewrite Hr. split; [reflexivity|]. split; intros ->; reflexivity.
Qed.

(** C4, as the claim states it: it fails on the payload Title wrapped in
    two double quotes on each side, which comes back as Title, where one
    layer of quotes removed would leave Title in double quotes. *)
Lemma generate_title_one_quote_layer_counterexample :
  ~ (forall up text w p,
       valid_input text ->
       up (_client (self w)) (issued_request (model (self w)) (py_strip text))
         = Replied (Some p) ->
       p <> [] ->
       fst (generate_title up text w) = Ok (strip_one_quote_layer p)).
Proof.
  intros H.
  pose (p := dquote ++ dquote ++ u "Title" ++ dquote ++ dquote).
  specialize (H (constant_service (Replied (Some p))) (u "Some text") sample_world p).
  assert (Hv : valid_input (u "Some text")).
  { split; [vm_compute; discriminate | vm_compute; discriminate]. }
  specialize (H Hv eq_refl ltac:(vm_compute; discriminate)).
  vm_compute in H. discriminate H.
Qed.

(** C5: on an accepted input, when the upstream call succeeds with an
    absent or empty payload, [generate_title] raises an [APIError] whose
    message mentions an empty response, and returns no title. *)
Theorem generate_title_empty_payload up text w
  (Hv : valid_input text)
  (Hempty : up (_client (self w)) (issued_request (model (self w)) (py_strip text))
              = Replied None \/
            up (_client (self w)) (issued_request (model (self w)) (py_strip text))
              = Replied (Some [])) :
  (exists msg cause, fst (generate_title up text w) = Raise (APIError msg cause) /\
                     contains msg (u "empty response")) /\
  (forall title, fst (generate_title up text w) <> Ok title).
Proof.
  assert (Hr : exists msg cause, fst (generate_title up text w) = Raise (APIError msg cause) /\
                                 contains msg (u "empty response")).
  { rewrite (generate_title_run up text w Hv). cbv zeta.
    destruct Hempty as [H | H]; rewrite H;
      unfold generate_title_handler, exn_status_code, msg_failed, exn_str;
      (eexists; eexists; split; [reflexivity|]);
      destruct (py_in (model (self w)) GPT5_MODELS).
    all: first
      [ exists (u "Failed to generate title: " ++ u "Model '" ++ model (self w)
                ++ u "' returned "), (u ".");
        unfold msg_model_empty; rewrite <- !app_assoc; reflexivity
      | exists (u "Failed to generate title: OpenAI API returned "), (u ".");
        reflexivity ]. }
  split; [exact Hr|].
  intros title Ht. destruct Hr as [msg [cause [Hr _]]]. congruence.
Qed.

(** C6: [_get_system_prompt] is a function of the model name alone and
    yields one of two fixed prompts: the simplified one exactly for
    [gpt-3.5-turbo], the full one for every other model.  The GPT-5 models
    (class A) are supported, and the supported models split into class A,
    [gpt-5], [gpt-5-mini], [gpt-5-nano], and class B, all the others. *)
Theorem get_system_prompt_classes :
  (forall m, _get_system_prompt m = simplified_prompt \/ _get_system_prompt m = base_prompt) /\
  (forall m, _get_system_prompt m = simplified_prompt <-> m = u "gpt-3.5-turbo") /\
  (forall m, m <> u "gpt-3.5-turbo" -> _get_system_prompt m = base_prompt) /\
  simplified_prompt <> base_prompt /\
  (forall m, In m GPT5_MODELS -> In m SUPPORTED_MODELS) /\
  (forall m, In m SUPPORTED_MODELS ->
     (In m GPT5_MODELS <-> In m (map u ["gpt-5"; "gpt-5-mini"; "gpt-5-nano"]%string)) /\
     (~ In m GPT5_MODELS <->
      In m (map u ["gpt-4o"; "gpt-4o-mini"; "gpt-4"; "gpt-3.5-turbo"]%string))).
Proof.
  assert (Hne : simplified_prompt <> base_prompt).
  { intros H. apply (f_equal (@List.length Z)) in H. vm_compute in H. discriminate H. }
  assert (Hiff : forall m, _get_system_prompt m = simplified_prompt <-> m = u "gpt-3.5-turbo").
  { intros m. unfold _get_system_prompt.
    destruct (py_in m [u "gpt-3.5-turbo"]) eqn:E.
    - apply py_in_In in E. destruct E as [E | []]. split; auto.
    - apply py_in_false in E. split; [intros H; exfalso; exact (Hne (eq_sym H))|].
      intros ->. exfalso. apply E. left. reflexivity. }
  split; [intros m; unfold _get_system_prompt; destruct (py_in _ _); auto|].
  split; [exact Hiff|].
  split.
  { intros m Hm. unfold _get_system_prompt.
    destruct (py_in m [u "gpt-3.5-turbo"]) eqn:E; [|reflexivity].
    apply py_in_In in E. destruct E as [E | []]. congruence. }
  split; [exact Hne|].
  split.
  - intros m H. unfold GPT5_MODELS, SUPPORTED_MODELS in *. simpl in H |- *. tauto.
  - intros m Hm. unfold SUPPORTED_MODELS in Hm.
    rewrite <- py_in_false, <- !py_in_In.
    simpl in Hm. repeat (destruct Hm as [<- | Hm]); [..| contradiction];
      vm_compute; split; split; intros; first [reflexivity | discriminate].
Qed.

Lemma truthy_py_or (a b : option pystr) :
  truthy (py_or a b) = truthy a || truthy b.
Proof. unfold py_or. destruct (truthy a) eqn:E; [exact E | reflexivity]. Qed.

Lemma Client_init_supported env key m :
  In m SUPPORTED_MODELS ->
  Client_init env key m =
  match py_or key env with
  | Some (c :: cs) => Ok (mkClient m (mkOpenAI (c :: cs)))
  | _ => Raise (ValidationError msg_key_required)
  end.
Proof.
  intros Hm. apply py_in_In in Hm. unfold Client_init. rewrite Hm. reflexivity.
Qed.

(** C7: construction with a model outside [SUPPORTED_MODELS] raises
    [ValidationError]; with a supported model and a credential available
    from the argument or from the environment, it succeeds. *)
Theorem Client_init_model_check env key m :
  (~ In m SUPPORTED_MODELS ->
   exists msg, Client_init env key m = Raise (ValidationError msg)) /\
  (In m SUPPORTED_MODELS -> truthy key = true \/ truthy env = true ->
   exists c, Client_init env key m = Ok c /\ model c = m).
Proof.
  split.
  - intros Hm. apply py_in_false in Hm. unfold Client_init. rewrite Hm.
    eexists; reflexivity.
  - intros Hm Hk. rewrite (Client_init_supported env key m Hm).
    assert (Ht : truthy (py_or key env) = true).
    { rewrite truthy_py_or. destruct Hk as [-> | ->]; [|rewrite orb_true_r]; reflexivity. }
    destruct (py_or key env) as [[|c cs]|]; try discriminate.
    eexists; split; reflexivity.
Qed.

(** C8: for a supported model, construction raises [ValidationError] iff
    neither the argument nor the environment holds a (non-empty)
    credential; otherwise it yields the client for that model over the
    credential [openai_api_key or env]. *)
Theorem Client_init_credential env key m (Hm : In m SUPPORTED_MODELS) :
  ((exists msg, Client_init env key m = Raise (ValidationError msg)) <->
   truthy key = false /\ truthy env = false) /\
  (truthy key = true \/ truthy env = true ->
   exists k, py_or key env = Some k /\ k <> [] /\
             Client_init env key m = Ok (mkClient m (mkOpenAI k))).
Proof.
  rewrite (Client_init_supported env key m Hm).
  pose proof (truthy_py_or key env) as Ht.
  split.
  - destruct (py_or key env) as [[|c cs]|]; simpl in Ht.
    + split; [intros _ | intros _; eexists; reflexivity].
      destruct (truthy key), (truthy env); split; easy.
    + split; [intros [msg H]; discriminate H|].
      intros [Hk He]. rewrite Hk, He in Ht. discriminate.
    + split; [intros _ | intros _; eexists; reflexivity].
      destruct (truthy key), (truthy env); split; easy.
  - intros Hk.
    assert (Ht' : truthy key || truthy env = true).
    { destruct Hk as [-> | ->]; [|rewrite orb_true_r]; reflexivity. }
    rewrite <- Ht in Ht'.
    destruct (py_or key env) as [[|c cs]|]; try discriminate.
    exists (c :: cs). split; [reflexivity | split; [discriminate | reflexivity]].
Qed.

Lemma handler_keeps_world (e : exn) (w : World) :
  snd (generate_title_handler e w) = w.
Proof. destruct (handler_raises_api e w) as [? [? ->]]. reflexivity. Qed.

(** C9: [generate_title] leaves [self] as it found it, whether it returns a
    title or raises: [self.model] and [self._client] are the same after the
    call as before. *)
Theorem generate_title_keeps_config up text w :
  self (snd (generate_title up text w)) = self w /\
  model (self (snd (generate_title up text w))) = model (self w) /\
  _client (self (snd (generate_title up text w))) = _client (self w).
Proof.
  enough (H : self (snd (generate_title up text w)) = self w) by (rewrite H; auto).
  rewrite generate_title_unfold.
  destruct (py_strip text) as [|c cs]; [reflexivity|].
  destruct (_ >? 8000); [reflexivity|].
  unfold try_except, generate_title_body, bind, get_self.
  destruct (py_in (model (self w)) GPT5_MODELS);
    unfold _generate_title_responses_api, _generate_title_chat_api, bind, get_self,
      create, ret, raise; simpl self; simpl _client;
    destruct (up (_client (self w)) _) as [[[|x xs]|]|s msg]; cbv iota;
    first [reflexivity | rewrite handler_keeps_world; reflexivity].
Qed.

(** C10: an explicit empty-string key counts as no key: construction then
    behaves as with [openai_api_key=None], taking the key from the
    environment, and succeeds iff that value is set and non-empty. *)
Theorem Client_init_empty_key env m (Hm : In m SUPPORTED_MODELS) :
  Client_init env (Some []) m = Client_init env None m /\
  (truthy env = true ->
   exists k, env = Some k /\ Client_init env (Some []) m = Ok (mkClient m (mkOpenAI k))) /\
  (truthy env = false ->
   exists msg, Client_init env (Some []) m = Raise (ValidationError msg)).
Proof.
  rewrite !(Client_init_supported env _ m Hm). unfold py_or. simpl truthy. cbv iota.
  split; [reflexivity|].
  destruct env as [[|c cs]|]; simpl; split; intros H; try discriminate;
    eexists; eauto.
Qed.

(** ** Witnesses: the hypotheses of the claims met on sample inputs *)

Lemma generate_title_failure_mapping_witness :
  valid_input (u "Some text") /\
  constant_service (Failed (Some 429) (u "Too Many Requests"))
    (_client (self sample_world))
    (issued_request (model (self sample_world)) (py_strip (u "Some text")))
  = Failed (Some 429) (u "Too Many Requests") /\
  fst (generate_title (constant_service (Failed (Some 429) (u "Too Many Requests")))
         (u "Some text") sample_world)
  = Raise (APIError msg_rate_limit
             (Some (UpstreamError (Some 429) (u "Too Many Requests")))).
Proof.
  assert (Hv : valid_input (u "Some text")).
  { split; [vm_compute; discriminate | vm_compute; discriminate]. }
  split; [exact Hv|]. split; [reflexivity|].
  exact (proj1 (generate_title_failure_mapping
                  (constant_service (Failed (Some 429) (u "Too Many Requests")))
                  (u "Some text") sample_world (Some 429) (u "Too Many Requests")
                  Hv eq_refl) eq_refl).
Defined.

Lemma generate_title_call_shape_witness :
  valid_input (u "  Test text  ") /\
  sent (snd (generate_title (constant_service (Replied (Some (u "Title"))))
               (u "  Test text  ") sample_world_gpt5))
  = [(mkOpenAI (u "sk-test"),
      ResponsesCreate (u "gpt-5-mini")
        (_get_system_prompt (u "gpt-5-mini") ++ nl ++ nl
         ++ u "Text to convert to title: " ++ u "Test text")
        (u "minimal") (u "low") (30 # 1))].
Proof.
  assert (Hv : valid_input (u "  Test text  ")).
  { split; [vm_compute; discriminate | vm_compute; discriminate]. }
  split; [exact Hv|].
  exact (proj1 (generate_title_call_shape
                  (constant_service (Replied (Some (u "Title"))))
                  (u "  Test text  ") sample_world_gpt5 Hv)
               (or_intror (or_introl eq_refl))).
Defined.

Lemma generate_title_returns_clean_title_witness :
  valid_input (u "Some text") /\
  fst (generate_title (constant_service (Replied (Some (dquote ++ u "Quoted Title" ++ dquote))))
         (u "Some text") sample_world)
  = Ok (u "Quoted Title").
Proof.
  assert (Hv : valid_input (u "Some text")).
  { split; [vm_compute; discriminate | vm_compute; discriminate]. }
  split; [exact Hv|].
  exact (proj2 (proj2 (generate_title_returns_clean_title
           (constant_service (Replied (Some (dquote ++ u "Quoted Title" ++ dquote))))
           (u "Some text") sample_world (dquote ++ u "Quoted Title" ++ dquote)
           Hv eq_refl ltac:(vm_compute; discriminate))) eq_refl).
Defined.

Lemma generate_title_empty_payload_witness :
  valid_input (u "Some text") /\
  forall title,
    fst (generate_title (constant_service (Replied None)) (u "Some text") sample_world)
    <> Ok title.
Proof.
  assert (Hv : valid_input (u "Some text")).
  { split; [vm_compute; discriminate | vm_compute; discriminate]. }
  split; [exact Hv|].
  exact (proj2 (generate_title_empty_payload (constant_service (Replied None))
                  (u "Some text") sample_world Hv (or_introl eq_refl))).
Defined.

Lemma Client_init_credential_witness :
  In (u "gpt-4o") SUPPORTED_MODELS /\
  exists msg, Client_init None (Some []) (u "gpt-4o") = Raise (ValidationError msg).
Proof.
  assert (Hm : In (u "gpt-4o") SUPPORTED_MODELS) by (simpl; tauto).
  split; [exact Hm|].
  apply (proj1 (Client_init_credential None (Some []) (u "gpt-4o") Hm)).
  split; reflexivity.
Defined.

Lemma Client_init_empty_key_witness :
  In (u "gpt-4") SUPPORTED_MODELS /\
  exists k, Some (u "env-key") = Some k /\
    Client_init (Some (u "env-key")) (Some []) (u "gpt-4")
    = Ok (mkClient (u "gpt-4") (mkOpenAI k)).
Proof.
  assert (Hm : In (u "gpt-4") SUPPORTED_MODELS) by (simpl; tauto).
  split; [exact Hm|].
  exact (proj1 (proj2 (Client_init_empty_key (Some (u "env-key")) (u "gpt-4") Hm))
           eq_refl).
Defined.

(** * Further properties of [core.py] and [cli.py] *)

(** ** Stripping *)

Lemma lstrip_by_suffix p s : exists pre, s = pre ++ lstrip_by p s.
Proof.
  induction s as [|c r IH]; [exists []; reflexivity|].
  simpl. destruct (p c) eqn:E.
  - destruct IH as [pre Hpre]. exists (c :: pre). simpl. rewrite <- Hpre. reflexivity.
  - exists []. reflexivity.
Qed.

Lemma lstrip_by_head p s :
  match lstrip_by p s with [] => True | c :: _ => p c = false end.
Proof.
  induction s as [|c r IH]; [exact I|]. simpl. destruct (p c) eqn:E; [exact IH | exact E].
Qed.

Lemma lstrip_by_stable p s :
  match s with [] => True | c :: _ => p c = false end -> lstrip_by p s = s.
Proof. destruct s as [|c r]; [reflexivity|]. simpl. intros ->. reflexivity. Qed.

Lemma lstrip_by_idem p s : lstrip_by p (lstrip_by p s) = lstrip_by p s.
Proof. apply lstrip_by_stable, lstrip_by_head. Qed.

Lemma rstrip_by_prefix p s : exists suf, s = rstrip_by p s ++ suf.
Proof.
  unfold rstrip_by. destruct (lstrip_by_suffix p (rev s)) as [pre Hpre].
  exists (rev pre). rewrite <- rev_app_distr, <- Hpre, rev_involutive. reflexivity.
Qed.

Lemma rstrip_by_last p s :
  match rev (rstrip_by p s) with [] => True | c :: _ => p c = false end.
Proof. unfold rstrip_by. rewrite rev_involutive. apply lstrip_by_head. Qed.

Lemma rstrip_by_idem p s : rstrip_by p (rstrip_by p s) = rstrip_by p s.
Proof. unfold rstrip_by. rewrite rev_involutive, lstrip_by_idem. reflexivity. Qed.

(** Cutting a tail keeps the head. *)
Lemma head_of_prefix (p : Z -> bool) t suf :
  match t ++ suf with [] => True | c :: _ => p c = false end ->
  match t with [] => True | c :: _ => p c = false end.
Proof. destruct t; simpl; auto. Qed.

Lemma strip_by_head p s :
  match strip_by p s with [] => True | c :: _ => p c = false end.
Proof.
  unfold strip_by. destruct (rstrip_by_prefix p (lstrip_by p s)) as [suf Hs].
  apply (head_of_prefix p _ suf). rewrite <- Hs. apply lstrip_by_head.
Qed.

Lemma strip_by_last p s :
  match rev (strip_by p s) with [] => True | c :: _ => p c = false end.
Proof. unfold strip_by. apply rstrip_by_last. Qed.

Lemma strip_by_idem p s : strip_by p (strip_by p s) = strip_by p s.
Proof.
  change (rstrip_by p (lstrip_by p (strip_by p s)) = strip_by p s).
  rewrite (lstrip_by_stable p (strip_by p s) (strip_by_head p s)).
  unfold strip_by. apply rstrip_by_idem.
Qed.

Lemma py_strip_idem s : py_strip (py_strip s) = py_strip s.
Proof. apply strip_by_idem. Qed.

(** ** [Client.__init__] *)

(** The model is checked before the credential: a model outside
    [SUPPORTED_MODELS] is reported, by name, whatever the credential. *)
Theorem Client_init_unsupported_model_first env key m
  (Hm : ~ In m SUPPORTED_MODELS) :
  Client_init env key m = Raise (ValidationError (msg_unsupported_model m)).
Proof. apply py_in_false in Hm. unfold Client_init. rewrite Hm. reflexivity. Qed.

(** A non-empty explicit key is used as is; the environment is not read. *)
Theorem Client_init_explicit_key_wins env k m
  (Hm : In m SUPPORTED_MODELS) (Hk : k <> []) :
  Client_init env (Some k) m = Ok (mkClient m (mkOpenAI k)).
Proof.
  rewrite (Client_init_supported env (Some k) m Hm). unfold py_or.
  destruct k as [|c cs]; [contradiction | reflexivity].
Qed.

(** ** [Client.generate_title] *)

(** An input rejected by validation raises [ValidationError] without
    touching anything: no request is sent and the state is unchanged. *)
Lemma generate_title_rejected up text w :
  ~ valid_input text ->
  exists msg, generate_title up text w = (Raise (ValidationError msg), w).
Proof.
  intros Hinv.
  rewrite generate_title_unfold. unfold valid_input in Hinv.
  destruct (py_strip text) as [|c cs]; [eexists; reflexivity|].
  destruct (Z.of_nat (List.length (c :: cs)) >? 8000) eqn:G; [eexists; reflexivity|].
  rewrite Z.gtb_ltb, Z.ltb_ge in G. exfalso. apply Hinv. split; [discriminate | lia].
Qed.

Theorem generate_title_rejected_sends_nothing up text w
  (Hinv : ~ valid_input text) :
  exists msg, generate_title up text w = (Raise (ValidationError msg), w).
Proof. exact (generate_title_rejected up text w Hinv). Qed.

(** Only the stripped text matters: surrounding whitespace of the input
    changes neither the outcome nor the request sent. *)
Theorem generate_title_strip_invariant up text w :
  generate_title up text w = generate_title up (py_strip text) w.
Proof. rewrite !generate_title_unfold, py_strip_idem. reflexivity. Qed.

(** No retry: a call sends exactly one request when the input is accepted
    and none when it is rejected. *)
Theorem generate_title_request_count up text w :
  (valid_input text ->
   sent (snd (generate_title up text w)) =
   sent w ++ [(_client (self w), issued_request (model (self w)) (py_strip text))]) /\
  (~ valid_input text -> sent (snd (generate_title up text w)) = sent w).
Proof.
  split; [apply sent_after_run|].
  intros Hinv. destruct (generate_title_rejected up text w Hinv) as [msg ->].
  reflexivity.
Qed.

(** Every exception [generate_title] lets out is a [TitleCraftError]
    ([ValidationError] or [APIError]); failures of the OpenAI client never
    escape unwrapped. *)
Lemma generate_title_titlecraft up text w :
  match fst (generate_title up text w) with
  | Ok _ => True
  | Raise e => is_titlecraft_error e = true
  end.
Proof.
  rewrite generate_title_unfold.
  destruct (py_strip text) as [|c cs]; [reflexivity|].
  destruct (_ >? 8000); [reflexivity|].
  unfold try_except. destruct (generate_title_body up (c :: cs) w) as [[a|e] w']; [exact I|].
  destruct (handler_raises_api e w') as [msg [cause ->]]. reflexivity.
Qed.

Theorem generate_title_raises_titlecraft_only up text w :
  match fst (generate_title up text w) with
  | Ok _ => True
  | Raise e => is_titlecraft_error e = true
  end.
Proof. apply generate_title_titlecraft. Qed.

(** A returned title never begins or ends with a single quote: the last
    step of the post-processing strips them all. *)
Theorem generate_title_no_edge_single_quote up text w title
  (Hok : fst (generate_title up text w) = Ok title) :
  hd_error title <> Some 39 /\ hd_error (rev title) <> Some 39.
Proof.
  assert (Hc : exists p, title = clean_title p).
  { rewrite generate_title_unfold in Hok.
    destruct (py_strip text) as [|c cs] eqn:E; [discriminate|].
    destruct (Z.of_nat (List.length (c :: cs)) >? 8000) eqn:G; [discriminate|].
    rewrite Z.gtb_ltb, Z.ltb_ge in G.
    assert (Hv : valid_input text) by (split; rewrite E; [discriminate | lia]).
    rewrite <- E, <- (generate_title_valid up text w Hv), (generate_title_run up text w Hv)
      in Hok.
    cbv zeta in Hok.
    destruct (up _ _) as [[[|x xs]|]|s msg];
      first
        [ match type of Hok with
          | fst (generate_title_handler ?e ?w') = _ =>
              destruct (handler_raises_api e w') as [? [? Hh]];
              rewrite Hh in Hok; discriminate
          end
        | cbn [fst] in Hok; injection Hok as <-; eexists; reflexivity ]. }
  destruct Hc as [p ->]. unfold clean_title, py_strip_chars.
  pose proof (strip_by_head (fun c => existsb (Z.eqb c) squote)
                (py_strip_chars dquote (py_strip p))) as Hh.
  pose proof (strip_by_last (fun c => existsb (Z.eqb c) squote)
                (py_strip_chars dquote (py_strip p))) as Hl.
  unfold py_strip_chars in Hh, Hl.
  split.
  - destruct (strip_by _ _) as [|c r]; simpl; [discriminate|].
    intros Hc. injection Hc as ->. discriminate Hh.
  - destruct (rev (strip_by _ _)) as [|c r]; simpl; [discriminate|].
    intros Hc. injection Hc as ->. discriminate Hl.
Qed.


(** ** [cli.main] *)

Lemma stdout_of_app l1 l2 : stdout_of (l1 ++ l2) = stdout_of l1 ++ stdout_of l2.
Proof. apply filter_app. Qed.

Lemma stdout_of_main_error v e : stdout_of (main_error v e) = [].
Proof.
  unfold main_error. destruct (is_titlecraft_error e); [reflexivity|].
  destruct v; reflexivity.
Qed.

Lemma stdout_of_stderr_if (b : bool) (s : pystr) :
  stdout_of (if b then [Stderr s] else []) = [].
Proof. destruct b; reflexivity. Qed.



(** With [--stdin], input that is empty after stripping stops [main] at
    once: one error line, status 1, no request. *)
Theorem main_stdin_empty up env stdin a
  (Hs : args_stdin a = true) (He : py_strip stdin = []) :
  main up env stdin a = ([Stderr msg_no_stdin], 1, []).
Proof. unfold main, main_get_text. rewrite Hs, He. reflexivity. Qed.


(** Without a credential, [main] reports the missing key and exits with
    status 1 before any request. *)
Theorem main_missing_key up env stdin a text
  (Ht : main_get_text stdin a = inl text)
  (Hm : In (args_model a) SUPPORTED_MODELS)
  (Hk : truthy (args_api_key a) = false) (He : truthy env = false) :
  main up env stdin a =
  ((if args_verbose a then [Stderr (u "Using model: " ++ args_model a)] else [])
     ++ [Stderr (u "Error: " ++ msg_key_required)], 1, []).
Proof.
  unfold main. rewrite Ht. unfold main_run. cbv zeta.
  rewrite (Client_init_supported env _ _ Hm). unfold py_or. rewrite Hk.
  destruct env as [[|c cs]|]; [reflexivity | discriminate | reflexivity].
Qed.

Lemma main_get_text_verbose stdin a b :
  main_get_text stdin (with_verbose a b) = main_get_text stdin a.
Proof. reflexivity. Qed.

(** [--verbose] only adds lines on stderr: what is printed on stdout, the
    exit status and the requests sent are the same with and without it. *)
Theorem main_verbose_only_stderr up env stdin a b :
  let '(o1, c1, s1) := main up env stdin a in
  let '(o2, c2, s2) := main up env stdin (with_verbose a b) in
  stdout_of o1 = stdout_of o2 /\ c1 = c2 /\ s1 = s2.
Proof.
  unfold main. rewrite main_get_text_verbose.
  destruct (main_get_text stdin a) as [text|outs]; [|auto].
  unfold main_run. cbv zeta. unfold with_verbose.
  cbn [args_text args_stdin args_model args_api_key args_verbose].
  destruct (Client_init env (args_api_key a) (args_model a)) as [client|e].
  - destruct (generate_title up text (mkWorld client [])) as [[t|e] w].
    + rewrite !stdout_of_app, !stdout_of_stderr_if. auto.
    + rewrite !stdout_of_app, !stdout_of_stderr_if, !stdout_of_main_error. auto.
  - rewrite !stdout_of_app, !stdout_of_stderr_if, !stdout_of_main_error. auto.
Qed.





(** Without [--verbose], piping a text through [--stdin] and passing it as
    the positional argument give the same run (output, status, requests),
    as long as it is not blank: [read_stdin] strips the text, and
    [generate_title] strips it anyway. *)
Theorem main_stdin_matches_positional up env m key t
  (Ht : py_strip t <> []) :
  main up env t (mkArgs None true m key false) =
  main up env [] (mkArgs (Some t) false m key false).
Proof.
  assert (Hs : main_get_text t (mkArgs None true m key false) = inl (py_strip t)).
  { unfold main_get_text. cbn [args_stdin].
    destruct (py_strip t); [contradiction | reflexivity]. }
  assert (Hp : main_get_text [] (mkArgs (Some t) false m key false) = inl t).
  { unfold main_get_text. cbn [args_stdin args_text].
    destruct t as [|c cs]; [contradiction | reflexivity]. }
  assert (Hg : forall w, generate_title up (py_strip t) w = generate_title up t w).
  { intros w. rewrite !generate_title_unfold, py_strip_idem. reflexivity. }
  unfold main. rewrite Hs, Hp. unfold main_run.
  cbn [args_text args_stdin args_model args_api_key args_verbose].
  destruct (Client_init env key m); [|reflexivity]. rewrite Hg. reflexivity.
Qed.

Lemma Client_init_ok_key env key m c :
  Client_init env key m = Ok c -> py_or key env = Some (api_key (_client c)).
Proof.
  unfold Client_init. destruct (negb (py_in m SUPPORTED_MODELS)); [discriminate|].
  destruct (py_or key env) as [[|x xs]|]; intros H; inversion H; reflexivity.
Qed.

Lemma classic_valid text : valid_input text \/ ~ valid_input text.
Proof.
  unfold valid_input. destruct (py_strip text) as [|c cs].
  - right. intros [H _]. apply H. reflexivity.
  - destruct (Z_le_gt_dec (Z.of_nat (List.length (c :: cs))) 8000).
    + left. split; [discriminate | assumption].
    + right. intros [_ H]. lia.
Qed.

Lemma generate_title_sent_cases up text w :
  sent (snd (generate_title up text w)) = sent w \/
  exists req, sent (snd (generate_title up text w)) = sent w ++ [(_client (self w), req)].
Proof.
  destruct (classic_valid text) as [Hv | Hinv].
  - right. eexists. apply (sent_after_run up text w Hv).
  - left. destruct (generate_title_rejected up text w Hinv) as [msg ->]. reflexivity.
Qed.

(** [main] sends at most one request, and only through a client holding
    the credential [--api-key or OPENAI_API_KEY]. *)
Theorem main_requests_use_resolved_key up env stdin a :
  let '(_, _, reqs) := main up env stdin a in
  (List.length reqs <= 1)%nat /\
  forall c req, In (c, req) reqs -> Some (api_key c) = py_or (args_api_key a) env.
Proof.
  unfold main. destruct (main_get_text stdin a) as [text|outs];
    [|split; [simpl; lia | intros c req []]].
  unfold main_run. cbv zeta.
  destruct (Client_init env (args_api_key a) (args_model a)) as [client|e] eqn:C;
    [|split; [simpl; lia | intros c req []]].
  pose proof (Client_init_ok_key _ _ _ _ C) as Hk.
  destruct (generate_title_sent_cases up text (mkWorld client [])) as [Hs | [req Hs]];
    destruct (generate_title up text (mkWorld client [])) as [[t|e] w];
    simpl in Hs; rewrite Hs;
    first [ split; [simpl; lia | intros c r [H | []]; injection H as <- _; symmetry; exact Hk]
          | split; [simpl; lia | intros c r []] ].
Qed.

(** ** Witnesses of the further properties *)

Lemma Client_init_unsupported_model_first_witness :
  ~ In (u "gpt-6") SUPPORTED_MODELS /\
  Client_init None (Some (u "sk-test")) (u "gpt-6")
  = Raise (ValidationError (msg_unsupported_model (u "gpt-6"))).
Proof.
  assert (Hm : ~ In (u "gpt-6") SUPPORTED_MODELS) by (apply py_in_false; vm_compute; reflexivity).
  split; [exact Hm|].
  exact (Client_init_unsupported_model_first None (Some (u "sk-test")) (u "gpt-6") Hm).
Defined.

Lemma Client_init_explicit_key_wins_witness :
  In (u "gpt-4o-mini") SUPPORTED_MODELS /\ u "sk-arg" <> [] /\
  Client_init (Some (u "sk-env")) (Some (u "sk-arg")) (u "gpt-4o-mini")
  = Ok (mkClient (u "gpt-4o-mini") (mkOpenAI (u "sk-arg"))).
Proof.
  assert (Hm : In (u "gpt-4o-mini") SUPPORTED_MODELS) by (simpl; tauto).
  assert (Hk : u "sk-arg" <> []) by (vm_compute; discriminate).
  split; [exact Hm | split; [exact Hk|]].
  exact (Client_init_explicit_key_wins (Some (u "sk-env")) (u "sk-arg") (u "gpt-4o-mini") Hm Hk).
Defined.

Lemma generate_title_rejected_sends_nothing_witness :
  ~ valid_input ([32; 9; 32]) /\
  exists msg, generate_title (constant_service (Replied (Some (u "Title")))) ([32; 9; 32])
                sample_world = (Raise (ValidationError msg), sample_world).
Proof.
  assert (Hinv : ~ valid_input ([32; 9; 32])).
  { intros [H _]. apply H. vm_compute. reflexivity. }
  split; [exact Hinv|].
  exact (generate_title_rejected_sends_nothing (constant_service (Replied (Some (u "Title"))))
           ([32; 9; 32]) sample_world Hinv).
Defined.

Lemma generate_title_no_edge_single_quote_witness :
  fst (generate_title (constant_service (Replied (Some (squote ++ u "Tis the Season" ++ squote))))
         (u "Some text") sample_world) = Ok (u "Tis the Season") /\
  hd_error (u "Tis the Season") <> Some 39 /\ hd_error (rev (u "Tis the Season")) <> Some 39.
Proof.
  assert (Hok : fst (generate_title
                       (constant_service (Replied (Some (squote ++ u "Tis the Season" ++ squote))))
                       (u "Some text") sample_world) = Ok (u "Tis the Season"))
    by (vm_compute; reflexivity).
  split; [exact Hok|].
  exact (generate_title_no_edge_single_quote _ _ _ _ Hok).
Defined.


Lemma main_stdin_empty_witness :
  main (constant_service (Replied (Some (u "Title")))) None (u "  ")
    (mkArgs None true DEFAULT_MODEL (Some (u "sk-test")) false)
  = ([Stderr msg_no_stdin], 1, []).
Proof.
  apply main_stdin_empty; [reflexivity | vm_compute; reflexivity].
Defined.


Lemma main_missing_key_witness :
  main (constant_service (Replied (Some (u "Title")))) (Some []) []
    (mkArgs (Some (u "Some text")) false DEFAULT_MODEL None true)
  = ([Stderr (u "Using model: " ++ DEFAULT_MODEL)]
       ++ [Stderr (u "Error: " ++ msg_key_required)], 1, []).
Proof.
  assert (Hm : In (args_model (mkArgs (Some (u "Some text")) false DEFAULT_MODEL None true))
                 SUPPORTED_MODELS) by (simpl; tauto).
  exact (main_missing_key (constant_service (Replied (Some (u "Title")))) (Some []) []
           (mkArgs (Some (u "Some text")) false DEFAULT_MODEL None true) (u "Some text")
           eq_refl Hm eq_refl eq_refl).
Defined.

Lemma main_stdin_matches_positional_witness :
  py_strip (u "  Some text  ") <> [] /\
  main (constant_service (Replied (Some (u "Title")))) None (u "  Some text  ")
    (mkArgs None true DEFAULT_MODEL (Some (u "sk-test")) false) =
  main (constant_service (Replied (Some (u "Title")))) None []
    (mkArgs (Some (u "  Some text  ")) false DEFAULT_MODEL (Some (u "sk-test")) false).
Proof.
  assert (Ht : py_strip (u "  Some text  ") <> []) by (vm_compute; discriminate).
  split; [exact Ht|].
  exact (main_stdin_matches_positional _ _ _ _ _ Ht).
Defined.
